(** * Tool Gateway bindings: a shallow embedding of [tools/bindings.py]

    The module is the agent-side client of the Tool Gateway.  It builds a
    versioned request envelope, sends it over one of two transports (plain
    HTTP, or the hosted AgentCore runtime), and validates the response
    envelope before handing [results] back to the agent.

    The embedding keeps the shape of the Python code:
    - JSON data is [pyval]; a Python [dict] is a [gmap string pyval];
    - raising is the [Raised] outcome of a small state-and-exception monad
      [M]; the state is the [world]: the outbound calls made so far and the
      number of draws taken from the operating system's random source;
    - what the libraries do ([requests], [boto3], [json], [os.urandom]) is
      the [platform], a record of functions the development is generic in. *)

From Stdlib Require Import ZArith NArith Ascii String Floats.PrimFloat.
From stdpp Require Import gmap strings list fin_maps.

Local Open Scope string_scope.
Set Warnings "-register-all".

(** ** Python values *)

(** What [json.loads] can produce: [None], [bool], [int], [float], [str],
    [list] and [dict] with string keys. *)
Inductive pyval :=
| PNone
| PBool (b : bool)
| PInt (z : Z)
| PFloat (f : PrimFloat.float)
| PStr (s : string)
| PList (l : list pyval)
| PDict (m : gmap string pyval).

(** [type(v).__name__], as it appears in the interpreter's messages. *)
Definition py_type_name (v : pyval) : string :=
  match v with
  | PNone => "NoneType"
  | PBool _ => "bool"
  | PInt _ => "int"
  | PFloat _ => "float"
  | PStr _ => "str"
  | PList _ => "list"
  | PDict _ => "dict"
  end.

(** [bool(v)]: [None], [False], zero, and the empty string, list and dict
    are false; everything else is true (a NaN float included). *)
Definition truthy (v : pyval) : bool :=
  match v with
  | PNone => false
  | PBool b => b
  | PInt z => negb (z =? 0)%Z
  | PFloat f => negb (PrimFloat.eqb f PrimFloat.zero)
  | PStr s => negb (String.eqb s "")
  | PList l => match l with [] => false | _ :: _ => true end
  | PDict m => match map_to_list m with [] => false | _ :: _ => true end
  end.

(** [a or b]. *)
Definition py_or (a b : pyval) : pyval := if truthy a then a else b.

(** [v != s] for a [str] literal [s]: only a [str] of the same contents
    compares equal to it. *)
Definition py_ne_str (v : pyval) (s : string) : bool :=
  match v with
  | PStr t => negb (String.eqb t s)
  | _ => true
  end.

(** [v is None]. *)
Definition is_None (v : pyval) : bool :=
  match v with PNone => true | _ => false end.

(** An optional string of the process environment as a Python value. *)
Definition of_getenv (o : option string) : pyval :=
  match o with Some s => PStr s | None => PNone end.

(** [bool(o)] for the result of [os.getenv]. *)
Definition getenv_truthy (o : option string) : bool :=
  match o with Some s => negb (String.eqb s "") | None => false end.

(** ** Exceptions and outcomes *)

(** What [requests.post] hands back: the final response, after the
    redirects the library followed. *)
Record http_response := {
  status_code : Z;
  text : string
}.

(** The exceptions a call can end in, by their class.  Those of the
    libraries are classes of their own; one of them, [RecursionError], is a
    subclass of [RuntimeError] (see [isinstance_RuntimeError]). *)
Inductive exn :=
| RuntimeError (arg : pyval)          (* the only exception the module raises itself *)
| AttributeError (msg : string)       (* [.get] on a value that is not a dict *)
| RequestException (detail : string)  (* requests: connection failure, timeout *)
| HTTPError (resp : http_response)    (* requests: [raise_for_status]; carries the response *)
| JSONDecodeError (doc : string)      (* json / requests: the body is not JSON *)
| RecursionError (msg : string)       (* json: the body is nested too deeply *)
| BotoError (detail : string).        (* boto3: import, client or invocation failure *)


Inductive outcome (A : Type) :=
| Returned (a : A)
| Raised (e : exn).
Arguments Returned {A} a.
Arguments Raised {A} e.

(** ** The world outside the process *)

Inductive net_call :=
| HttpPost (url : string) (json : pyval) (timeout : Z)
| InvokeAgentRuntime (region arn session payload qualifier : string).

(** The log has one entry for each call the module makes into a network
    library, [requests.post] or [client.invoke_agent_runtime].  What the
    library puts on the wire for one such call (the redirects it follows,
    the retries of the SDK) is its own business and is not recorded. *)
Record world := {
  net_log : list net_call;   (* calls into the network libraries, oldest first *)
  urandom_draws : nat        (* how many times [os.urandom] was read *)
}.

(** What [json.loads] makes of a text. *)
Inductive json_result :=
| Decoded (v : pyval)
| NotJSON
| TooDeep.

(** The libraries the module calls, as the process environment of the run
    configures them (proxies, credentials, endpoints).  A network operation
    answers by the call and by how many calls went out before it. *)
Record platform := {
  json_dumps : pyval -> string;
  json_loads : string -> json_result;
  requests_post : string -> pyval -> Z -> nat -> string + http_response;
  boto3_client : string -> string -> option string;
  invoke_agent_runtime : string -> string -> string -> string -> string -> nat -> string + string;
  os_urandom16 : nat -> N
}.

(** ** The monad *)

Definition M (A : Type) : Type := world -> outcome A * world.

#[export] Instance M_ret : MRet M := fun A a w => (Returned a, w).

#[export] Instance M_bind : MBind M := fun A B f c w =>
  match c w with
  | (Returned a, w') => f a w'
  | (Raised e, w') => (Raised e, w')
  end.

Definition raise {A : Type} (e : exn) : M A := fun w => (Raised e, w).

(** Record an outbound call. *)
Definition emit (c : net_call) : M unit := fun w =>
  (Returned tt, {| net_log := net_log w ++ [c]; urandom_draws := urandom_draws w |}).

(** How many calls went out so far. *)
Definition sent : M nat := fun w => (Returned (length (net_log w)), w).

(** [v.get(k, d)]: the method exists on dicts only. *)
Definition py_get (v : pyval) (k : string) (d : pyval) : M pyval :=
  match v with
  | PDict m => mret (default d (m !! k))
  | _ => raise (AttributeError
                  ("'" ++ py_type_name v ++ "' object has no attribute 'get'"))
  end.

(** ** Module globals *)

Definition CONTRACT_VERSION : string := "v1".

(** [str.lower] on the ASCII range; bytes of other code points are kept.
    No code point outside that range lowers to a letter of ["agentcore"],
    so the comparison with the mode name is the one Python makes. *)
Definition ascii_lower (c : ascii) : ascii :=
  let n := nat_of_ascii c in
  if (65 <=? n)%nat && (n <=? 90)%nat then ascii_of_nat (n + 32) else c.

Fixpoint lower (s : string) : string :=
  match s with
  | EmptyString => EmptyString
  | String c r => String (ascii_lower c) (lower r)
  end.

(** [os.getenv(k)] and [os.getenv(k, d)]. *)
Definition getenv (env : gmap string string) (k : string) : option string :=
  env !! k.

Definition getenv_or (env : gmap string string) (k d : string) : string :=
  default d (env !! k).

(** The settings read once, when the module is imported. *)
Record settings := {
  TOOL_GATEWAY_MODE : string;
  TOOL_GATEWAY_URL : string;
  TOOL_GATEWAY_RUNTIME_ARN : option string;
  TOOL_GATEWAY_QUALIFIER : string;
  AWS_REGION : string
}.

Definition import_module (env : gmap string string) : settings := {|
  TOOL_GATEWAY_MODE := lower (getenv_or env "TOOL_GATEWAY_MODE" "http");
  TOOL_GATEWAY_URL := getenv_or env "TOOL_GATEWAY_URL" "http://localhost:8080";
  TOOL_GATEWAY_RUNTIME_ARN := getenv env "TOOL_GATEWAY_RUNTIME_ARN";
  TOOL_GATEWAY_QUALIFIER := getenv_or env "TOOL_GATEWAY_QUALIFIER" "DEFAULT";
  AWS_REGION :=
    getenv_or env "AWS_REGION" (getenv_or env "AWS_DEFAULT_REGION" "us-east-1")
|}.

(** ** [uuid.uuid4().hex] *)

(** [UUID(bytes=os.urandom(16), version=4).int]: sixteen random bytes read
    big-endian, with the variant and version bits forced. *)
Definition uuid4_int (r : N) : N :=
  let i := (r mod 2 ^ 128)%N in
  let i := N.ldiff i (N.shiftl 0xc000 48) in
  let i := N.lor i (N.shiftl 0x8000 48) in
  let i := N.ldiff i (N.shiftl 0xf000 64) in
  N.lor i (N.shiftl 4 76).

Definition hex_digit (d : N) : ascii :=
  match String.get (N.to_nat d) "0123456789abcdef" with
  | Some c => c
  | None => "0"%char
  end.

(** The digits of [n] in base sixteen, most significant first, before [acc]. *)
Fixpoint hex_digits (fuel : nat) (n : N) (acc : string) : string :=
  match fuel with
  | O => acc
  | S fuel' =>
      let acc' := String (hex_digit (n mod 16)) acc in
      if (n / 16 =? 0)%N then acc' else hex_digits fuel' (n / 16)%N acc'
  end.

(** ['%x' % n]. *)
Definition format_x (n : N) : string :=
  hex_digits (S (N.to_nat (N.log2 n))) n "".

Fixpoint zeros (k : nat) : string :=
  match k with
  | O => ""
  | S k' => String "0" (zeros k')
  end.

(** ['%032x' % n]: zero-padded on the left to a width of at least 32. *)
Definition format_032x (n : N) : string :=
  let s := format_x n in
  zeros (32 - String.length s) ++ s.

(** [int(s, 16)] on lower-case digits, to read an identifier back. *)
Definition digit_value (c : ascii) : N :=
  let n := N_of_ascii c in
  if ((48 <=? n) && (n <=? 57))%N then (n - 48)%N
  else if ((97 <=? n) && (n <=? 102))%N then (n - 87)%N
  else 0%N.

Fixpoint int16_from (s : string) (acc : N) : N :=
  match s with
  | EmptyString => acc
  | String c r => int16_from r (16 * acc + digit_value c)%N
  end.

Definition int16 (s : string) : N := int16_from s 0.

(** ** The functions of the module *)

Section Bindings.
Variable P : platform.
Variable G : settings.

Definition _new_runtime_session_id : M string := fun w =>
  (Returned ("session-" ++ format_032x (uuid4_int (os_urandom16 P (urandom_draws w)))),
   {| net_log := net_log w; urandom_draws := S (urandom_draws w) |}).

(** [requests.post(url, json=payload, timeout=t)]: one entry in the log
    for the call, and the response or the failure the library ends with. *)
Definition post (url : string) (payload : pyval) (t : Z) : M http_response :=
  n ← sent;
  _ ← emit (HttpPost url payload t);
  match requests_post P url payload t n with
  | inl detail => raise (RequestException detail)
  | inr resp => mret resp
  end.

(** [resp.raise_for_status()]: client and server error codes raise, and
    the exception holds the response. *)
Definition raise_for_status (resp : http_response) : M unit :=
  if ((400 <=? status_code resp) && (status_code resp <? 600))%Z
  then raise (HTTPError resp)
  else mret tt.

(** [json.loads(raw)], also behind [resp.json()]: the decoded value, or
    the decoder's exception. *)
Definition loads (raw : string) : M pyval :=
  match json_loads P raw with
  | Decoded v => mret v
  | NotJSON => raise (JSONDecodeError raw)
  | TooDeep => raise (RecursionError "maximum recursion depth exceeded")
  end.

Definition _call_tool_gateway_http (payload : pyval) : M pyval :=
  resp ← post (TOOL_GATEWAY_URL G ++ "/tools/invoke") payload 20;
  _ ← raise_for_status resp;
  loads (text resp).

(** [import boto3; boto3.client(service, region_name=region)]. *)
Definition client (service region : string) : M unit :=
  match boto3_client P service region with
  | Some detail => raise (BotoError detail)
  | None => mret tt
  end.

(** [client.invoke_agent_runtime(...)] followed by reading the whole
    streaming body [response["response"].read()]: one entry in the log for
    the call, and the body or the failure the SDK ends with. *)
Definition invoke_and_read (arn session body qualifier : string) : M string :=
  n ← sent;
  _ ← emit (InvokeAgentRuntime (AWS_REGION G) arn session body qualifier);
  match invoke_agent_runtime P (AWS_REGION G) arn session body qualifier n with
  | inl detail => raise (BotoError detail)
  | inr raw => mret raw
  end.

Definition _call_tool_gateway_agentcore (payload : pyval) : M pyval :=
  if negb (getenv_truthy (TOOL_GATEWAY_RUNTIME_ARN G)) then
    raise (RuntimeError
             (PStr "TOOL_GATEWAY_RUNTIME_ARN is required when TOOL_GATEWAY_MODE=agentcore"))
  else
    _ ← client "bedrock-agentcore" (AWS_REGION G);
    let body := json_dumps P payload in
    session ← _new_runtime_session_id;
    raw ← invoke_and_read (default "" (TOOL_GATEWAY_RUNTIME_ARN G)) session body
            (TOOL_GATEWAY_QUALIFIER G);
    loads raw.

Definition _call_tool_gateway (payload : pyval) : M pyval :=
  if String.eqb (TOOL_GATEWAY_MODE G) "agentcore"
  then _call_tool_gateway_agentcore payload
  else _call_tool_gateway_http payload.

(** The request envelope [search_kb] builds; [env] is the process
    environment at the time of the call. *)
Definition search_kb_payload (env : gmap string string) (query : string) : pyval :=
  PDict (<["contract_version" := PStr CONTRACT_VERSION]>
        (<["tool_name" := PStr "search_kb"]>
        (<["input" := PDict {["query" := PStr query]}]>
        (<["tenant_id" := of_getenv (getenv env "TENANT_ID")]>
        (<["user_id" := of_getenv (getenv env "USER_ID")]>
        (<["correlation_id" := of_getenv (getenv env "CORRELATION_ID")]> ∅)))))).

(** The defensive checks that end [search_kb], from the version test to
    the [return], run on the body the transport gave back. *)
Definition check_response (body : pyval) : M pyval :=
  version ← py_get body "contract_version" PNone;
  if py_ne_str version CONTRACT_VERSION then
    raise (RuntimeError (PStr "Tool Gateway contract version mismatch"))
  else
    ok ← py_get body "ok" PNone;
    if negb (truthy ok) then
      e ← py_get body "error" (PDict ∅);
      let error := py_or e (PDict ∅) in
      message ← py_get error "message" (PStr "Tool call failed");
      raise (RuntimeError message)
    else
      o ← py_get body "output" (PDict ∅);
      let output := py_or o (PDict ∅) in
      results ← py_get output "results" PNone;
      if is_None results then
        raise (RuntimeError (PStr "Malformed tool response: missing 'results'"))
      else
        mret results.

Definition search_kb (env : gmap string string) (query : string) : M pyval :=
  let payload := search_kb_payload env query in
  body ← _call_tool_gateway payload;
  check_response body.

End Bindings.

(** ** The error kinds of the specification, as the module raises them

    The module has one exception class for all of them, [RuntimeError]; the
    kind is carried by the message. *)

Definition ConfigurationError : exn :=
  RuntimeError (PStr "TOOL_GATEWAY_RUNTIME_ARN is required when TOOL_GATEWAY_MODE=agentcore").

Definition ContractMismatch : exn :=
  RuntimeError (PStr "Tool Gateway contract version mismatch").

Definition ToolFailure (message : pyval) : exn := RuntimeError message.

Definition fallback_message : pyval := PStr "Tool call failed".

Definition MalformedResponse : exn :=
  RuntimeError (PStr "Malformed tool response: missing 'results'").

(** A transport error is an exception of [requests], [json] or [boto3],
    passed through unchanged, told by its class. *)
Definition is_transport_error (e : exn) : bool :=
  match e with
  | RequestException _ | HTTPError _ | JSONDecodeError _ | RecursionError _
  | BotoError _ => true
  | RuntimeError _ | AttributeError _ => false
  end.

(** ** A mocked platform

    Every network operation succeeds and its body decodes to [body]; the
    random source counts. *)
Definition mock (body : pyval) : platform := {|
  json_dumps := fun _ => "<request>";
  json_loads := fun _ => Decoded body;
  requests_post := fun _ _ _ _ => inr {| status_code := 200; text := "<response>" |};
  boto3_client := fun _ _ => None;
  invoke_agent_runtime := fun _ _ _ _ _ _ => inr "<response>";
  os_urandom16 := fun n => N.of_nat n
|}.

Definition fresh : world := {| net_log := []; urandom_draws := 0 |}.

(** A gateway that answers every POST with the given status; [body] is
    what decoding its text gives. *)
Definition mock_http (status : Z) (body : json_result) : platform := {|
  json_dumps := fun _ => "<request>";
  json_loads := fun _ => body;
  requests_post := fun _ _ _ _ => inr {| status_code := status; text := "<response>" |};
  boto3_client := fun _ _ => None;
  invoke_agent_runtime := fun _ _ _ _ _ _ => inr "<response>";
  os_urandom16 := fun n => N.of_nat n
|}.

(** A machine without network and without a usable [boto3]. *)
Definition mock_offline : platform := {|
  json_dumps := fun _ => "<request>";
  json_loads := fun _ => NotJSON;
  requests_post := fun _ _ _ _ => inl "connection refused";
  boto3_client := fun _ _ => Some "No module named 'boto3'";
  invoke_agent_runtime := fun _ _ _ _ _ _ => inl "unreachable";
  os_urandom16 := fun n => N.of_nat n
|}.

(** ** Vocabulary of the statements *)

(** [error.message], when the envelope has it. *)
Definition error_message (m : gmap string pyval) : option pyval :=
  match m !! "error" with
  | Some (PDict e) => e !! "message"
  | _ => None
  end.


(** A character of [0-9a-f]. *)
Definition is_lower_hex (c : ascii) : bool :=
  let n := N_of_ascii c in
  ((48 <=? n) && (n <=? 57) || (97 <=? n) && (n <=? 102))%N.

Fixpoint all_chars (p : ascii -> bool) (s : string) : bool :=
  match s with
  | EmptyString => true
  | String c r => p c && all_chars p r
  end.

(** The world after one more outbound call. *)
Definition after_call (w : world) (c : net_call) : world :=
  {| net_log := net_log w ++ [c]; urandom_draws := urandom_draws w |}.

(** A value [.get] can be called on without an [AttributeError]: a mapping,
    or a false value, which [or {}] replaces by the empty mapping. *)
Definition get_safe (v : pyval) : bool :=
  match v with
  | PDict _ => true
  | _ => negb (truthy v)
  end.


(** The message of the [AttributeError] for [v.get]. *)
Definition no_get (v : pyval) : string :=
  "'" ++ py_type_name v ++ "' object has no attribute 'get'".




(** The call is an invocation of the hosted runtime. *)
Definition is_invocation (c : net_call) : bool :=
  match c with
  | InvokeAgentRuntime _ _ _ _ _ => true
  | HttpPost _ _ _ => false
  end.

(** The call [c] carries the envelope [payload]: as the JSON body of the
    POST, or serialised as the payload of the runtime invocation. *)
Definition carries (P : platform) (payload : pyval) (c : net_call) : Prop :=
  match c with
  | HttpPost _ json _ => json = payload
  | InvokeAgentRuntime _ _ _ body _ => body = json_dumps P payload
  end.

(** ** Sample envelopes *)

(** The scenario of the specification: one document comes back. *)
Definition doc1_envelope : gmap string pyval :=
  {[ "contract_version" := PStr "v1";
     "ok" := PBool true;
     "output" := PDict {[ "results" := PList [PDict {[ "id" := PStr "doc1" ]}] ]} ]}.

(** An envelope with a [results] field of value [null]. *)
Definition null_results_envelope : gmap string pyval :=
  {[ "contract_version" := PStr "v1";
     "ok" := PBool true;
     "output" := PDict {[ "results" := PNone ]} ]}.

(** An envelope whose [output] has another field, and no [results]. *)
Definition no_results_envelope : gmap string pyval :=
  {[ "contract_version" := PStr "v1";
     "ok" := PBool true;
     "output" := PDict {[ "hits" := PInt 3 ]} ]}.

(** An envelope that reports failure with a message of the remote side. *)
Definition quota_envelope : gmap string pyval :=
  {[ "contract_version" := PStr "v1";
     "ok" := PBool false;
     "error" := PDict {[ "message" := PStr "quota exceeded" ]} ]}.

(** An envelope that reports failure with a bare string for [error]. *)
Definition string_error_envelope : gmap string pyval :=
  {[ "contract_version" := PStr "v1";
     "ok" := PBool false;
     "error" := PStr "boom" ]}.

(** The one-document envelope with [ok] sent as the number one, and as
    the number zero. *)
Definition ok_one_envelope : gmap string pyval := <["ok" := PInt 1]> doc1_envelope.

Definition ok_zero_envelope : gmap string pyval := <["ok" := PInt 0]> doc1_envelope.

(** An envelope whose [output] is a list. *)
Definition list_output_envelope : gmap string pyval :=
  {[ "contract_version" := PStr "v1";
     "ok" := PBool true;
     "output" := PList [PInt 1] ]}.

(** Settings that select the hosted runtime. *)
Definition hosted_settings : settings :=
  import_module {[ "TOOL_GATEWAY_MODE" := "agentcore";
                   "TOOL_GATEWAY_RUNTIME_ARN" := "arn:runtime/tg" ]}.

(** An envelope of another contract version that otherwise looks like a
    success. *)
Definition v2_envelope : gmap string pyval :=
  {[ "contract_version" := PStr "v2";
     "ok" := PBool true;
     "output" := PDict {[ "results" := PList [] ]} ]}.


(** * Session identifiers *)

Lemma hex_digits_length (fuel : nat) :
  forall (k : nat) (n : N) (acc : string),
    (n < 16 ^ N.of_nat (S k))%N ->
    String.length (hex_digits fuel n acc) <= String.length acc + S k.
Proof.
  induction fuel as [|fuel IH]; intros k n acc Hn; simpl.
  - lia.
  - destruct (N.eqb_spec (n / 16) 0%N) as [Hq|Hq]; simpl; [lia|].
    destruct k as [|k].
    + exfalso. apply Hq. apply N.div_small. exact Hn.
    + specialize (IH k (n / 16)%N (String (hex_digit (n mod 16)) acc)).
      simpl in IH.
      assert (n / 16 < 16 ^ N.of_nat (S k))%N as Hdiv.
      { apply N.Div0.div_lt_upper_bound.
        replace (N.of_nat (S (S k))) with (N.succ (N.of_nat (S k))) in Hn by lia.
        rewrite N.pow_succ_r' in Hn. exact Hn. }
      specialize (IH Hdiv). lia.
Qed.

Lemma format_x_length_128 (n : N) :
  (n < 2 ^ 128)%N -> String.length (format_x n) <= 32.
Proof.
  intros Hn. unfold format_x.
  pose proof (hex_digits_length (S (N.to_nat (N.log2 n))) 31 n "") as H.
  simpl String.length in H. apply H.
  change (16 ^ N.of_nat 32)%N with (2 ^ 128)%N. exact Hn.
Qed.

Lemma zeros_length (k : nat) : String.length (zeros k) = k.
Proof. induction k; simpl; congruence. Qed.

Lemma append_length (s t : string) :
  String.length (s ++ t) = String.length s + String.length t.
Proof. induction s as [|c s IH]; simpl; [reflexivity|]. now rewrite IH. Qed.

Lemma format_032x_length (n : N) :
  (n < 2 ^ 128)%N -> String.length (format_032x n) = 32.
Proof.
  intros Hn. unfold format_032x.
  pose proof (format_x_length_128 n Hn).
  rewrite append_length, zeros_length. lia.
Qed.

Lemma digit_value_hex_digit (d : N) :
  (d < 16)%N -> digit_value (hex_digit d) = d.
Proof.
  intros Hd.
  assert (exists k : nat, k < 16 /\ d = N.of_nat k) as (k & Hk & ->)
    by (exists (N.to_nat d); lia).
  do 16 (destruct k as [|k]; [reflexivity|]). lia.
Qed.

Lemma int16_from_spec (s : string) :
  forall acc : N,
    int16_from s acc = (acc * 16 ^ N.of_nat (String.length s) + int16 s)%N.
Proof.
  unfold int16. induction s as [|c s IH]; intros acc; simpl String.length; simpl int16_from.
  - rewrite N.pow_0_r. lia.
  - rewrite (IH (16 * acc + digit_value c)%N), (IH (16 * 0 + digit_value c)%N).
    replace (N.of_nat (S (String.length s))) with (N.succ (N.of_nat (String.length s)))
      by lia.
    rewrite N.pow_succ_r'. lia.
Qed.

(** The fuel of [format_x] is enough: the digits read back as the number. *)
Lemma hex_digits_value (fuel : nat) :
  forall (n : N) (acc : string),
    (n < 16 ^ N.of_nat fuel)%N ->
    int16 (hex_digits fuel n acc)
    = (n * 16 ^ N.of_nat (String.length acc) + int16 acc)%N.
Proof.
  induction fuel as [|fuel IH]; intros n acc Hn.
  - simpl in *. replace n with 0%N by lia. lia.
  - simpl hex_digits.
    assert (int16 (String (hex_digit (n mod 16)) acc)
            = ((n mod 16) * 16 ^ N.of_nat (String.length acc) + int16 acc)%N) as Hacc.
    { unfold int16 at 1. simpl int16_from. rewrite int16_from_spec.
      rewrite digit_value_hex_digit by (apply N.mod_lt; discriminate). lia. }
    pose proof (N.div_mod n 16 ltac:(discriminate)) as Hdm.
    destruct (N.eqb_spec (n / 16) 0%N) as [Hq|Hq].
    + rewrite Hacc. rewrite Hq in Hdm. replace (n mod 16)%N with n by lia. reflexivity.
    + rewrite IH, Hacc.
      * simpl String.length.
        replace (N.of_nat (S (String.length acc)))
          with (N.succ (N.of_nat (String.length acc))) by lia.
        rewrite N.pow_succ_r'. nia.
      * apply N.Div0.div_lt_upper_bound.
        replace (N.of_nat (S fuel)) with (N.succ (N.of_nat fuel)) in Hn by lia.
        now rewrite N.pow_succ_r' in Hn.
Qed.

Lemma format_x_value (n : N) : int16 (format_x n) = n.
Proof.
  unfold format_x. rewrite hex_digits_value.
  - simpl. unfold int16. simpl. lia.
  - destruct (N.eq_dec n 0%N) as [->|Hn]; [reflexivity|].
    eapply N.lt_le_trans; [apply N.log2_spec; lia|].
    replace (N.of_nat (S (N.to_nat (N.log2 n)))) with (N.succ (N.log2 n)) by lia.
    replace 16%N with (2 ^ 4)%N by reflexivity.
    rewrite <- N.pow_mul_r. apply N.pow_le_mono_r; lia.
Qed.

Lemma int16_zeros (k : nat) (s : string) : int16 (zeros k ++ s) = int16 s.
Proof.
  induction k as [|k IH]; [reflexivity|].
  unfold int16 in *. simpl. exact IH.
Qed.

Lemma format_032x_value (n : N) : int16 (format_032x n) = n.
Proof. unfold format_032x. now rewrite int16_zeros, format_x_value. Qed.

Lemma lor_lt_pow2 (a b k : N) :
  (a < 2 ^ k)%N -> (b < 2 ^ k)%N -> (N.lor a b < 2 ^ k)%N.
Proof.
  intros Ha Hb.
  destruct (N.eq_dec (N.lor a b) 0%N) as [E|E].
  - rewrite E. apply N.neq_0_lt_0, N.pow_nonzero. discriminate.
  - apply N.log2_lt_pow2; [lia|].
    rewrite N.log2_lor.
    destruct (N.eq_dec a 0%N) as [->|Ha0], (N.eq_dec b 0%N) as [->|Hb0];
      try (exfalso; apply E; reflexivity).
    + rewrite N.max_r by (simpl; lia). apply N.log2_lt_pow2; lia.
    + rewrite N.max_l by (simpl; lia). apply N.log2_lt_pow2; lia.
    + apply N.max_lub_lt; apply N.log2_lt_pow2; lia.
Qed.

Lemma uuid4_int_lt (r : N) : (uuid4_int r < 2 ^ 128)%N.
Proof.
  unfold uuid4_int.
  apply lor_lt_pow2; [|reflexivity].
  eapply N.le_lt_trans; [apply N.ldiff_le_l|].
  apply lor_lt_pow2; [|reflexivity].
  eapply N.le_lt_trans; [apply N.ldiff_le_l|].
  apply N.mod_lt. discriminate.
Qed.

Lemma session_id_length (P : platform) (w : world) :
  exists (sid : string) (w' : world),
    _new_runtime_session_id P w = (Returned sid, w') /\ String.length sid = 40.
Proof.
  eexists _, _. split; [reflexivity|].
  rewrite append_length, format_032x_length by apply uuid4_int_lt.
  reflexivity.
Qed.

Example session_id_first :
  fst (_new_runtime_session_id (mock PNone) fresh)
  = Returned "session-00000000000040008000000000000000".
Proof. vm_compute. reflexivity. Qed.

Example format_x_zero : format_x 0%N = "0".
Proof. reflexivity. Qed.

Example format_x_beef : format_x 0xbeef%N = "beef".
Proof. vm_compute. reflexivity. Qed.

(** C5. Every session identifier the generator produces is at least 33
    characters long: the generator always returns, and what it returns is
    the 8-character marker followed by the 32 hexadecimal digits of the
    random token. *)
Theorem session_id_at_least_33 (P : platform) (w : world) :
  exists (sid : string) (w' : world),
    _new_runtime_session_id P w = (Returned sid, w') /\ 33 <= String.length sid.
Proof.
  destruct (session_id_length P w) as (sid & w' & Hrun & Hlen).
  exists sid, w'. split; [exact Hrun|lia].
Qed.

(** * Validation of the response envelope *)

Lemma search_kb_returned (P : platform) (G : settings) (env : gmap string string)
    (q : string) (w w' : world) (body : pyval) :
  _call_tool_gateway P G (search_kb_payload env q) w = (Returned body, w') ->
  search_kb P G env q w = check_response body w'.
Proof. intros H. unfold search_kb, mbind, M_bind. now rewrite H. Qed.

Lemma search_kb_raised (P : platform) (G : settings) (env : gmap string string)
    (q : string) (w w' : world) (e : exn) :
  _call_tool_gateway P G (search_kb_payload env q) w = (Raised e, w') ->
  search_kb P G env q w = (Raised e, w').
Proof. intros H. unfold search_kb, mbind, M_bind. now rewrite H. Qed.

Lemma py_ne_str_false (v : pyval) (s : string) :
  py_ne_str v s = false <-> v = PStr s.
Proof.
  destruct v; simpl; try (split; [discriminate|congruence]).
  rewrite Bool.negb_false_iff, String.eqb_eq. split; congruence.
Qed.

Lemma version_mismatch (m : gmap string pyval) :
  m !! "contract_version" <> Some (PStr CONTRACT_VERSION) ->
  py_ne_str (default PNone (m !! "contract_version")) CONTRACT_VERSION = true.
Proof.
  intros H. apply Bool.not_false_is_true. intros E.
  apply py_ne_str_false in E.
  destruct (m !! "contract_version") as [v|]; simpl in E; [|discriminate].
  now subst v.
Qed.

Lemma version_match (m : gmap string pyval) :
  m !! "contract_version" = Some (PStr CONTRACT_VERSION) ->
  py_ne_str (default PNone (m !! "contract_version")) CONTRACT_VERSION = false.
Proof. intros ->. reflexivity. Qed.

Lemma falsy_dict_empty (o : gmap string pyval) :
  truthy (PDict o) = false -> o = ∅.
Proof.
  simpl. destruct (map_to_list o) eqn:E; [|discriminate].
  intros _. now apply map_to_list_empty_iff.
Qed.

Lemma dict_or_empty (o : gmap string pyval) :
  py_or (PDict o) (PDict ∅) = PDict o.
Proof.
  unfold py_or. destruct (truthy (PDict o)) eqn:E; [reflexivity|].
  now rewrite (falsy_dict_empty o E).
Qed.

Lemma bind_get_dict {A : Type} (m : gmap string pyval) (k : string) (d : pyval)
    (f : pyval -> M A) (w : world) :
  (x ← py_get (PDict m) k d; f x) w = f (default d (m !! k)) w.
Proof. reflexivity. Qed.

(** The checks past the version test, for a body of matching version. *)
Lemma check_response_matching (m : gmap string pyval) (w : world) :
  m !! "contract_version" = Some (PStr CONTRACT_VERSION) ->
  check_response (PDict m) w =
    if negb (truthy (default PNone (m !! "ok"))) then
      (message ← py_get (py_or (default (PDict ∅) (m !! "error")) (PDict ∅))
                   "message" fallback_message;
       raise (RuntimeError message)) w
    else
      (results ← py_get (py_or (default (PDict ∅) (m !! "output")) (PDict ∅))
                   "results" PNone;
       if is_None results then raise MalformedResponse else mret results) w.
Proof.
  intros Hv. unfold check_response.
  rewrite bind_get_dict, (version_match m Hv). cbv iota.
  rewrite bind_get_dict.
  destruct (truthy (default PNone (m !! "ok"))); cbn [negb]; cbv iota;
    rewrite bind_get_dict; reflexivity.
Qed.

(** C1. When the transport hands back an envelope whose [contract_version]
    is absent or is not the client's own version, [search_kb] raises the
    contract-mismatch error and so returns no success, whatever [ok] and
    [output] hold; the outcome is the same for every envelope that agrees
    on that one field, so no other field is looked at. *)
Theorem search_kb_contract_mismatch (P : platform) (G : settings)
    (env : gmap string string) (q : string) (w w' : world) (m : gmap string pyval) :
  _call_tool_gateway P G (search_kb_payload env q) w = (Returned (PDict m), w') ->
  m !! "contract_version" <> Some (PStr CONTRACT_VERSION) ->
  search_kb P G env q w = (Raised ContractMismatch, w')
  /\ (forall r : pyval, search_kb P G env q w <> (Returned r, w'))
  /\ (forall m' : gmap string pyval,
        m' !! "contract_version" = m !! "contract_version" ->
        check_response (PDict m') w' = (Raised ContractMismatch, w')).
Proof.
  intros Hcall Hv.
  assert (forall m' : gmap string pyval,
            m' !! "contract_version" = m !! "contract_version" ->
            check_response (PDict m') w' = (Raised ContractMismatch, w')) as Hany.
  { intros m' Hsame. rewrite <- Hsame in Hv.
    unfold check_response.
    now rewrite bind_get_dict, (version_mismatch m' Hv). }
  rewrite (search_kb_returned _ _ _ _ _ _ _ Hcall).
  rewrite (Hany m eq_refl). repeat split; [discriminate|exact Hany].
Qed.

Lemma search_kb_contract_mismatch_witness :
  search_kb (mock (PDict v2_envelope)) (import_module ∅) ∅ "refund policy" fresh
  = (Raised ContractMismatch,
     {| net_log := [HttpPost "http://localhost:8080/tools/invoke"
                       (search_kb_payload ∅ "refund policy") 20];
        urandom_draws := 0 |}).
Proof.
  refine (proj1 (search_kb_contract_mismatch (mock (PDict v2_envelope))
                   (import_module ∅) ∅ "refund policy" fresh _ v2_envelope _ _)).
  - vm_compute. reflexivity.
  - vm_compute. discriminate.
Defined.

Lemma results_of_output (o : gmap string pyval) (w : world) :
  (results ← py_get (py_or (PDict o) (PDict ∅)) "results" PNone;
   if is_None results then raise MalformedResponse else mret results) w
  = match o !! "results" with
    | Some r => if is_None r then (Raised MalformedResponse, w) else (Returned r, w)
    | None => (Raised MalformedResponse, w)
    end.
Proof.
  rewrite dict_or_empty, bind_get_dict.
  destruct (o !! "results") as [[]|]; reflexivity.
Qed.

(** C2, as stated, fails: the envelope has the matching version, [ok] true
    and an [output] mapping that contains the field [results], bound to
    [null]; the call raises the malformed-response error instead of
    returning that value. *)
Lemma search_kb_null_results_counterexample :
  _call_tool_gateway (mock (PDict null_results_envelope)) (import_module ∅)
      (search_kb_payload ∅ "refund policy") fresh
    = (Returned (PDict null_results_envelope),
       {| net_log := [HttpPost "http://localhost:8080/tools/invoke"
                         (search_kb_payload ∅ "refund policy") 20];
          urandom_draws := 0 |})
  /\ null_results_envelope !! "contract_version" = Some (PStr CONTRACT_VERSION)
  /\ null_results_envelope !! "ok" = Some (PBool true)
  /\ null_results_envelope !! "output" = Some (PDict {[ "results" := PNone ]})
  /\ ({[ "results" := PNone ]} : gmap string pyval) !! "results" = Some PNone
  /\ fst (search_kb (mock (PDict null_results_envelope)) (import_module ∅)
            ∅ "refund policy" fresh)
     = Raised MalformedResponse
  /\ fst (search_kb (mock (PDict null_results_envelope)) (import_module ∅)
            ∅ "refund policy" fresh)
     <> Returned PNone.
Proof.
  assert (fst (search_kb (mock (PDict null_results_envelope)) (import_module ∅)
                 ∅ "refund policy" fresh) = Raised MalformedResponse) as Hrun
    by (vm_compute; reflexivity).
  repeat split; try (vm_compute; reflexivity).
  rewrite Hrun. discriminate.
Qed.

(** C2, amended. If the transport returns an envelope with the matching
    version, [ok] true and an [output] mapping whose [results] field holds
    a value other than [null], then [search_kb] returns exactly that
    value. *)
Theorem search_kb_returns_results (P : platform) (G : settings)
    (env : gmap string string) (q : string) (w w' : world)
    (m o : gmap string pyval) (r : pyval) :
  _call_tool_gateway P G (search_kb_payload env q) w = (Returned (PDict m), w') ->
  m !! "contract_version" = Some (PStr CONTRACT_VERSION) ->
  m !! "ok" = Some (PBool true) ->
  m !! "output" = Some (PDict o) ->
  o !! "results" = Some r ->
  r <> PNone ->
  search_kb P G env q w = (Returned r, w').
Proof.
  intros Hcall Hv Hok Hout Hres Hr.
  rewrite (search_kb_returned _ _ _ _ _ _ _ Hcall).
  rewrite (check_response_matching m w' Hv), Hok, Hout. cbn [default from_option id truthy negb].
  rewrite results_of_output, Hres.
  destruct r; try reflexivity. now elim Hr.
Qed.

Lemma search_kb_returns_results_witness :
  search_kb (mock (PDict doc1_envelope)) (import_module ∅) ∅ "refund policy" fresh
  = (Returned (PList [PDict {[ "id" := PStr "doc1" ]}]),
     {| net_log := [HttpPost "http://localhost:8080/tools/invoke"
                       (search_kb_payload ∅ "refund policy") 20];
        urandom_draws := 0 |}).
Proof.
  apply (search_kb_returns_results (mock (PDict doc1_envelope)) (import_module ∅)
           ∅ "refund policy" fresh _ doc1_envelope
           {[ "results" := PList [PDict {[ "id" := PStr "doc1" ]}] ]}).
  - vm_compute. reflexivity.
  - vm_compute. reflexivity.
  - vm_compute. reflexivity.
  - vm_compute. reflexivity.
  - vm_compute. reflexivity.
  - discriminate.
Defined.

(** C3, as stated, fails: the envelope has the matching version and [ok]
    false, and no [error.message], so the claim promises the tool failure
    with the fallback message; the call ends in an [AttributeError]
    instead, since [error] is a string and has no [get]. *)
Lemma search_kb_string_error_counterexample :
  _call_tool_gateway (mock (PDict string_error_envelope)) (import_module ∅)
      (search_kb_payload ∅ "refund policy") fresh
    = (Returned (PDict string_error_envelope),
       {| net_log := [HttpPost "http://localhost:8080/tools/invoke"
                         (search_kb_payload ∅ "refund policy") 20];
          urandom_draws := 0 |})
  /\ string_error_envelope !! "contract_version" = Some (PStr CONTRACT_VERSION)
  /\ string_error_envelope !! "ok" = Some (PBool false)
  /\ error_message string_error_envelope = None
  /\ fst (search_kb (mock (PDict string_error_envelope)) (import_module ∅)
            ∅ "refund policy" fresh)
     = Raised (AttributeError "'str' object has no attribute 'get'")
  /\ fst (search_kb (mock (PDict string_error_envelope)) (import_module ∅)
            ∅ "refund policy" fresh)
     <> Raised (ToolFailure fallback_message).
Proof.
  assert (fst (search_kb (mock (PDict string_error_envelope)) (import_module ∅)
                 ∅ "refund policy" fresh)
          = Raised (AttributeError "'str' object has no attribute 'get'")) as Hrun
    by (vm_compute; reflexivity).
  repeat split; try (vm_compute; reflexivity).
  rewrite Hrun. discriminate.
Qed.

Lemma message_of_error (m : gmap string pyval) (w : world) :
  (forall v : pyval, m !! "error" = Some v -> truthy v = true ->
                     exists e : gmap string pyval, v = PDict e) ->
  (message ← py_get (py_or (default (PDict ∅) (m !! "error")) (PDict ∅))
               "message" fallback_message;
   @raise pyval (RuntimeError message)) w
  = (Raised (ToolFailure (default fallback_message (error_message m))), w).
Proof.
  intros Hshape. unfold error_message.
  destruct (m !! "error") as [v|] eqn:E; cbn [default from_option id].
  - destruct (truthy v) eqn:Ht.
    + destruct (Hshape v eq_refl Ht) as [e ->].
      now rewrite dict_or_empty, bind_get_dict.
    + unfold py_or at 1. rewrite Ht, bind_get_dict, lookup_empty.
      destruct v; try reflexivity.
      now rewrite (falsy_dict_empty m0 Ht), lookup_empty.
  - now rewrite dict_or_empty, bind_get_dict, lookup_empty.
Qed.

(** C3, amended. For an envelope with the matching version whose [ok] is
    absent or false, and whose [error] field is absent, null (or another
    false value) or a mapping, [search_kb] raises the tool failure; its
    message is [error.message] when the envelope has that field, and the
    fallback message otherwise. *)
Theorem search_kb_tool_failure (P : platform) (G : settings)
    (env : gmap string string) (q : string) (w w' : world) (m : gmap string pyval) :
  _call_tool_gateway P G (search_kb_payload env q) w = (Returned (PDict m), w') ->
  m !! "contract_version" = Some (PStr CONTRACT_VERSION) ->
  m !! "ok" = None \/ m !! "ok" = Some (PBool false) ->
  (forall v : pyval, m !! "error" = Some v -> truthy v = true ->
                     exists e : gmap string pyval, v = PDict e) ->
  search_kb P G env q w
  = (Raised (ToolFailure (default fallback_message (error_message m))), w').
Proof.
  intros Hcall Hv Hok Hshape.
  rewrite (search_kb_returned _ _ _ _ _ _ _ Hcall).
  rewrite (check_response_matching m w' Hv).
  assert (negb (truthy (default PNone (m !! "ok"))) = true) as ->
    by (destruct Hok as [-> | ->]; reflexivity).
  now apply message_of_error.
Qed.

Lemma search_kb_tool_failure_witness :
  search_kb (mock (PDict quota_envelope)) (import_module ∅) ∅ "refund policy" fresh
  = (Raised (ToolFailure (default fallback_message (error_message quota_envelope))),
     {| net_log := [HttpPost "http://localhost:8080/tools/invoke"
                       (search_kb_payload ∅ "refund policy") 20];
        urandom_draws := 0 |}).
Proof.
  apply (search_kb_tool_failure (mock (PDict quota_envelope)) (import_module ∅)
           ∅ "refund policy" fresh _ quota_envelope).
  - vm_compute. reflexivity.
  - vm_compute. reflexivity.
  - right. vm_compute. reflexivity.
  - intros v Hv _.
    exists {[ "message" := PStr "quota exceeded" ]}.
    assert (quota_envelope !! "error"
            = Some (PDict {[ "message" := PStr "quota exceeded" ]})) as E
      by (vm_compute; reflexivity).
    rewrite E in Hv. now inversion Hv.
Defined.

Example quota_message :
  default fallback_message (error_message quota_envelope) = PStr "quota exceeded".
Proof. vm_compute. reflexivity. Qed.

Example empty_failure_message :
  fst (search_kb (mock (PDict {[ "contract_version" := PStr "v1" ]}))
         (import_module ∅) ∅ "refund policy" fresh)
  = Raised (ToolFailure (PStr "Tool call failed")).
Proof. vm_compute. reflexivity. Qed.

(** C4. For an envelope with the matching version and [ok] true whose
    [output] mapping has no [results] field, [search_kb] raises the
    malformed-response error, and the message of that error names the
    field, ['results']. *)
Theorem search_kb_missing_results (P : platform) (G : settings)
    (env : gmap string string) (q : string) (w w' : world)
    (m o : gmap string pyval) :
  _call_tool_gateway P G (search_kb_payload env q) w = (Returned (PDict m), w') ->
  m !! "contract_version" = Some (PStr CONTRACT_VERSION) ->
  m !! "ok" = Some (PBool true) ->
  m !! "output" = Some (PDict o) ->
  o !! "results" = None ->
  search_kb P G env q w = (Raised MalformedResponse, w')
  /\ exists pre post : string,
       MalformedResponse = RuntimeError (PStr (pre ++ "'results'" ++ post)).
Proof.
  intros Hcall Hv Hok Hout Hres. split.
  - rewrite (search_kb_returned _ _ _ _ _ _ _ Hcall).
    rewrite (check_response_matching m w' Hv), Hok, Hout.
    cbn [default from_option id truthy negb].
    now rewrite results_of_output, Hres.
  - now exists "Malformed tool response: missing ", "".
Qed.

Lemma search_kb_missing_results_witness :
  search_kb (mock (PDict no_results_envelope)) (import_module ∅) ∅ "refund policy" fresh
  = (Raised MalformedResponse,
     {| net_log := [HttpPost "http://localhost:8080/tools/invoke"
                       (search_kb_payload ∅ "refund policy") 20];
        urandom_draws := 0 |})
  /\ exists pre post : string,
       MalformedResponse = RuntimeError (PStr (pre ++ "'results'" ++ post)).
Proof.
  apply (search_kb_missing_results (mock (PDict no_results_envelope)) (import_module ∅)
           ∅ "refund policy" fresh _ no_results_envelope {[ "hits" := PInt 3 ]}).
  - vm_compute. reflexivity.
  - vm_compute. reflexivity.
  - vm_compute. reflexivity.
  - vm_compute. reflexivity.
  - vm_compute. reflexivity.
Defined.

(** C9. For an envelope with the matching version and [ok] true, when
    [output] is absent or null, or is a mapping in which [results] is bound
    to null, [search_kb] raises the malformed-response error: it neither
    ends in another exception nor returns null. *)
Theorem search_kb_null_output (P : platform) (G : settings)
    (env : gmap string string) (q : string) (w w' : world) (m : gmap string pyval) :
  _call_tool_gateway P G (search_kb_payload env q) w = (Returned (PDict m), w') ->
  m !! "contract_version" = Some (PStr CONTRACT_VERSION) ->
  m !! "ok" = Some (PBool true) ->
  m !! "output" = None \/ m !! "output" = Some PNone
  \/ (exists o : gmap string pyval,
        m !! "output" = Some (PDict o) /\ o !! "results" = Some PNone) ->
  search_kb P G env q w = (Raised MalformedResponse, w').
Proof.
  intros Hcall Hv Hok Hout.
  rewrite (search_kb_returned _ _ _ _ _ _ _ Hcall).
  rewrite (check_response_matching m w' Hv), Hok.
  cbn [default from_option id truthy negb].
  destruct Hout as [-> | [-> | (o & -> & Hres)]]; cbn [default from_option id].
  - now rewrite results_of_output, lookup_empty.
  - change (py_or PNone (PDict ∅)) with (py_or (PDict ∅) (PDict ∅)).
    now rewrite results_of_output, lookup_empty.
  - now rewrite results_of_output, Hres.
Qed.

Lemma search_kb_null_output_witness :
  search_kb (mock (PDict {[ "contract_version" := PStr "v1"; "ok" := PBool true;
                            "output" := PNone ]}))
    (import_module ∅) ∅ "refund policy" fresh
  = (Raised MalformedResponse,
     {| net_log := [HttpPost "http://localhost:8080/tools/invoke"
                       (search_kb_payload ∅ "refund policy") 20];
        urandom_draws := 0 |}).
Proof.
  apply (search_kb_null_output _ (import_module ∅) ∅ "refund policy" fresh _
           {[ "contract_version" := PStr "v1"; "ok" := PBool true;
              "output" := PNone ]}).
  - vm_compute. reflexivity.
  - vm_compute. reflexivity.
  - vm_compute. reflexivity.
  - right. left. vm_compute. reflexivity.
Defined.

(** * Transport selection *)

(** C6. In hosted-runtime mode with [TOOL_GATEWAY_RUNTIME_ARN] not set,
    every call raises the configuration error and leaves the world as it
    was: the log of outbound calls has gained nothing, so no network
    operation was attempted. *)
Theorem search_kb_missing_arn (P : platform) (env0 env : gmap string string)
    (q : string) (w : world) :
  lower (getenv_or env0 "TOOL_GATEWAY_MODE" "http") = "agentcore" ->
  getenv env0 "TOOL_GATEWAY_RUNTIME_ARN" = None ->
  search_kb P (import_module env0) env q w = (Raised ConfigurationError, w)
  /\ net_log (snd (search_kb P (import_module env0) env q w)) = net_log w.
Proof.
  intros Hmode Harn.
  assert (search_kb P (import_module env0) env q w = (Raised ConfigurationError, w)) as H.
  { apply search_kb_raised.
    unfold _call_tool_gateway, _call_tool_gateway_agentcore.
    cbn [TOOL_GATEWAY_MODE TOOL_GATEWAY_RUNTIME_ARN import_module].
    now rewrite Hmode, Harn. }
  now rewrite H.
Qed.

Lemma search_kb_missing_arn_witness :
  search_kb (mock PNone) (import_module {[ "TOOL_GATEWAY_MODE" := "AgentCore" ]})
    ∅ "refund policy" fresh
  = (Raised ConfigurationError, fresh)
  /\ net_log (snd (search_kb (mock PNone)
                     (import_module {[ "TOOL_GATEWAY_MODE" := "AgentCore" ]})
                     ∅ "refund policy" fresh))
     = net_log fresh.
Proof.
  apply (search_kb_missing_arn (mock PNone) {[ "TOOL_GATEWAY_MODE" := "AgentCore" ]}
           ∅ "refund policy" fresh).
  - vm_compute. reflexivity.
  - vm_compute. reflexivity.
Defined.

(** The HTTP transport makes exactly one outbound call, the POST of the
    payload, and what it raises is an exception of the transport. *)
Lemma http_one_post (P : platform) (G : settings) (payload : pyval) (w : world) :
  net_log (snd (_call_tool_gateway_http P G payload w))
  = (net_log w ++ [HttpPost (TOOL_GATEWAY_URL G ++ "/tools/invoke") payload 20])%list
  /\ forall e : exn, fst (_call_tool_gateway_http P G payload w) = Raised e ->
                     is_transport_error e = true.
Proof.
  unfold _call_tool_gateway_http, post, raise_for_status, loads, sent, emit,
    raise, mbind, M_bind, mret, M_ret.
  destruct (requests_post P _ payload 20 _) as [detail|resp]; cbn.
  - split; [reflexivity|]. now intros e [= <-].
  - destruct ((400 <=? status_code resp)%Z && (status_code resp <? 600)%Z); cbn.
    + split; [reflexivity|]. now intros e [= <-].
    + destruct (json_loads P (text resp)); cbn; split; try reflexivity.
      * discriminate.
      * now intros e [= <-].
      * now intros e [= <-].
Qed.

(** C10. Whatever the configured mode string, unless its lowercased value
    is ["agentcore"], the dispatcher does what the HTTP transport does: the
    call goes out as one POST to the gateway, and the only exceptions are
    those of that transport, none for the unknown mode. *)
Theorem other_modes_use_http (P : platform) (env0 : gmap string string)
    (payload : pyval) (w : world) :
  lower (getenv_or env0 "TOOL_GATEWAY_MODE" "http") <> "agentcore" ->
  _call_tool_gateway P (import_module env0) payload w
  = _call_tool_gateway_http P (import_module env0) payload w
  /\ net_log (snd (_call_tool_gateway P (import_module env0) payload w))
     = (net_log w ++ [HttpPost (TOOL_GATEWAY_URL (import_module env0) ++ "/tools/invoke")
                        payload 20])%list
  /\ forall e : exn,
       fst (_call_tool_gateway P (import_module env0) payload w) = Raised e ->
       is_transport_error e = true.
Proof.
  intros Hmode.
  assert (_call_tool_gateway P (import_module env0) payload w
          = _call_tool_gateway_http P (import_module env0) payload w) as H.
  { unfold _call_tool_gateway. cbn [TOOL_GATEWAY_MODE import_module].
    apply String.eqb_neq in Hmode. now rewrite Hmode. }
  rewrite H. split; [reflexivity|]. apply http_one_post.
Qed.

Lemma other_modes_use_http_witness :
  _call_tool_gateway (mock PNone) (import_module {[ "TOOL_GATEWAY_MODE" := "agent-core" ]})
    (PStr "x") fresh
  = _call_tool_gateway_http (mock PNone)
      (import_module {[ "TOOL_GATEWAY_MODE" := "agent-core" ]}) (PStr "x") fresh
  /\ net_log (snd (_call_tool_gateway (mock PNone)
                     (import_module {[ "TOOL_GATEWAY_MODE" := "agent-core" ]})
                     (PStr "x") fresh))
     = (net_log fresh
        ++ [HttpPost (TOOL_GATEWAY_URL (import_module {[ "TOOL_GATEWAY_MODE" := "agent-core" ]})
                      ++ "/tools/invoke") (PStr "x") 20])%list
  /\ forall e : exn,
       fst (_call_tool_gateway (mock PNone)
              (import_module {[ "TOOL_GATEWAY_MODE" := "agent-core" ]})
              (PStr "x") fresh) = Raised e ->
       is_transport_error e = true.
Proof.
  apply (other_modes_use_http (mock PNone) {[ "TOOL_GATEWAY_MODE" := "agent-core" ]}
           (PStr "x") fresh).
  vm_compute. discriminate.
Defined.

Example lower_mixed : lower "AgentCore" = "agentcore".
Proof. reflexivity. Qed.

Example default_mode : TOOL_GATEWAY_MODE (import_module ∅) = "http".
Proof. vm_compute. reflexivity. Qed.

(** * The request envelope *)

Lemma agentcore_log (P : platform) (G : settings) (payload : pyval) (w : world) :
  exists calls : list net_call,
    net_log (snd (_call_tool_gateway_agentcore P G payload w)) = (net_log w ++ calls)%list
    /\ Forall (carries P payload) calls.
Proof.
  unfold _call_tool_gateway_agentcore, client, _new_runtime_session_id,
    invoke_and_read, loads, sent, emit, raise, mbind, M_bind, mret, M_ret.
  destruct (getenv_truthy (TOOL_GATEWAY_RUNTIME_ARN G)); cbn.
  - destruct (boto3_client P "bedrock-agentcore" (AWS_REGION G)); cbn.
    + exists []. split; [now rewrite app_nil_r | constructor].
    + destruct (invoke_agent_runtime P _ _ _ _ _ _) as [detail|raw]; cbn.
      * eexists [_]. split; [reflexivity|]. now repeat constructor.
      * destruct (json_loads P raw); cbn;
          (eexists [_]; split; [reflexivity|]; now repeat constructor).
  - exists []. split; [now rewrite app_nil_r | constructor].
Qed.

Lemma gateway_log (P : platform) (G : settings) (payload : pyval) (w : world) :
  exists calls : list net_call,
    net_log (snd (_call_tool_gateway P G payload w)) = (net_log w ++ calls)%list
    /\ Forall (carries P payload) calls.
Proof.
  unfold _call_tool_gateway.
  destruct (String.eqb (TOOL_GATEWAY_MODE G) "agentcore").
  - apply agentcore_log.
  - eexists [_]. split; [apply http_one_post|]. now repeat constructor.
Qed.

(** The checks read the body and nothing else: the world is as before. *)
Lemma check_response_world (body : pyval) (w : world) :
  snd (check_response body w) = w.
Proof.
  destruct body as [| | | | | |m]; try reflexivity.
  unfold check_response. rewrite bind_get_dict.
  destruct (py_ne_str _ CONTRACT_VERSION); [reflexivity|].
  rewrite bind_get_dict.
  destruct (negb (truthy _)); rewrite bind_get_dict; cbv zeta.
  - destruct (py_or _ (PDict ∅)); reflexivity.
  - destruct (py_or _ (PDict ∅)) as [| | | | | |o]; try reflexivity.
    rewrite bind_get_dict. destruct (is_None _); reflexivity.
Qed.

Lemma search_kb_world (P : platform) (G : settings) (env : gmap string string)
    (q : string) (w : world) :
  snd (search_kb P G env q w)
  = snd (_call_tool_gateway P G (search_kb_payload env q) w).
Proof.
  unfold search_kb, mbind, M_bind.
  destruct (_call_tool_gateway P G (search_kb_payload env q) w) as [[body|e] w'];
    [apply check_response_world | reflexivity].
Qed.

(** C8. For every query [q], the envelope [search_kb] hands to the
    transport has [contract_version] equal to the client's version,
    [tool_name] ["search_kb"], [input] the mapping of ["query"] to [q]
    alone, and the tenant, user and correlation identifiers of the
    environment, null where the environment has none; it has no other
    field, it is what the dispatcher is called with, and every outbound
    call of the run carries it. *)
Theorem search_kb_request_envelope (P : platform) (G : settings)
    (env : gmap string string) (q : string) (w : world) :
  exists p : gmap string pyval,
    p !! "contract_version" = Some (PStr CONTRACT_VERSION)
    /\ p !! "tool_name" = Some (PStr "search_kb")
    /\ p !! "input" = Some (PDict {[ "query" := PStr q ]})
    /\ p !! "tenant_id" = Some (from_option PStr PNone (env !! "TENANT_ID"))
    /\ p !! "user_id" = Some (from_option PStr PNone (env !! "USER_ID"))
    /\ p !! "correlation_id" = Some (from_option PStr PNone (env !! "CORRELATION_ID"))
    /\ dom p = {[ "contract_version"; "tool_name"; "input";
                  "tenant_id"; "user_id"; "correlation_id" ]}
    /\ search_kb P G env q w
       = (body ← _call_tool_gateway P G (PDict p); check_response body) w
    /\ exists calls : list net_call,
         net_log (snd (search_kb P G env q w)) = (net_log w ++ calls)%list
         /\ Forall (carries P (PDict p)) calls.
Proof.
  eexists. split_and!.
  8: reflexivity.
  8: { rewrite search_kb_world. apply gateway_log. }
  all: now simplify_map_eq.
Qed.

Example agentcore_call :
  net_log (snd (search_kb (mock PNone)
                  (import_module {[ "TOOL_GATEWAY_MODE" := "agentcore";
                                    "TOOL_GATEWAY_RUNTIME_ARN" := "arn:runtime/tg" ]})
                  {[ "TENANT_ID" := "t1" ]} "refund policy" fresh))
  = [InvokeAgentRuntime "us-east-1" "arn:runtime/tg"
       "session-00000000000040008000000000000000" "<request>" "DEFAULT"].
Proof. vm_compute. reflexivity. Qed.

(** * Failures as the caller sees them *)




(** A returned value is the whole [results] field of a valid envelope. *)
Lemma check_response_returned (body r : pyval) (w w' : world) :
  check_response body w = (Returned r, w') ->
  w' = w
  /\ exists m o : gmap string pyval,
       body = PDict m
       /\ m !! "contract_version" = Some (PStr CONTRACT_VERSION)
       /\ truthy (default PNone (m !! "ok")) = true
       /\ m !! "output" = Some (PDict o)
       /\ o !! "results" = Some r
       /\ r <> PNone.
Proof.
  intros H.
  pose proof (check_response_world body w) as Hw. rewrite H in Hw. cbn in Hw.
  split; [exact Hw|]. subst w'.
  destruct body as [| | | | | |m]; try discriminate.
  assert (m !! "contract_version" = Some (PStr CONTRACT_VERSION)) as Hv.
  { unfold check_response in H. rewrite bind_get_dict in H.
    destruct (py_ne_str _ CONTRACT_VERSION) eqn:E; [discriminate|].
    apply py_ne_str_false in E.
    destruct (m !! "contract_version"); [now cbn in E; subst|discriminate]. }
  rewrite (check_response_matching m w Hv) in H.
  destruct (truthy (default PNone (m !! "ok"))) eqn:Hok; cbn [negb] in H.
  - destruct (m !! "output") as [v|] eqn:Hout; cbn [default from_option id] in H.
    + destruct (truthy v) eqn:Ht.
      * unfold py_or in H. rewrite Ht in H.
        destruct v as [| | | | | |o]; try discriminate.
        rewrite bind_get_dict in H.
        destruct (o !! "results") as [r'|] eqn:Hres; [|discriminate].
        cbn [default from_option id] in H.
        destruct r'; try discriminate; injection H as <-;
          (exists m, o; split_and!; first [assumption | reflexivity | discriminate]).
      * unfold py_or in H. now rewrite Ht in H.
    + discriminate.
  - exfalso. destruct (py_or _ (PDict ∅)); discriminate.
Qed.

Lemma get_safe_or (v : pyval) :
  get_safe v = true ->
  exists e : gmap string pyval,
    py_or v (PDict ∅) = PDict e
    /\ forall k : string, e !! k = match v with PDict d => d !! k | _ => None end.
Proof.
  intros Hs.
  assert ((exists d : gmap string pyval, v = PDict d)
          \/ (truthy v = false
              /\ forall k : string,
                   match v with PDict d => d !! k | _ => None end = None)) as [[d ->]|[Ht Hk]].
  { destruct v; simpl in Hs; try (right; split; [now apply negb_true_iff|reflexivity]).
    left. eauto. }
  - exists d. split; [apply dict_or_empty | reflexivity].
  - exists ∅. unfold py_or. rewrite Ht. split; [reflexivity|].
    intros k. now rewrite lookup_empty, Hk.
Qed.

Lemma get_unsafe_or (v : pyval) (k : string) (d : pyval) (w : world) :
  get_safe v = false ->
  py_get (py_or v (PDict ∅)) k d w = (Raised (AttributeError (no_get v)), w).
Proof.
  intros Hs. unfold no_get. destruct v; simpl in Hs; try discriminate;
    apply negb_false_iff in Hs; unfold py_or; simpl truthy; simpl in Hs;
    rewrite ?Hs; try reflexivity; try discriminate.
Qed.

Lemma get_safe_shape (m : gmap string pyval) (k : string) :
  get_safe (default (PDict ∅) (m !! k)) = true ->
  forall v : pyval, m !! k = Some v -> truthy v = true ->
                    exists e : gmap string pyval, v = PDict e.
Proof.
  intros Hs v Hv Ht. rewrite Hv in Hs. cbn [default from_option id] in Hs.
  destruct v; try (unfold get_safe in Hs; rewrite Ht in Hs; discriminate).
  eauto.
Qed.

Lemma version_cases (m : gmap string pyval) :
  m !! "contract_version" = Some (PStr CONTRACT_VERSION)
  \/ m !! "contract_version" <> Some (PStr CONTRACT_VERSION).
Proof.
  destruct (py_ne_str (default PNone (m !! "contract_version")) CONTRACT_VERSION) eqn:E.
  - right. intros H. rewrite (version_match m H) in E. discriminate.
  - left. apply py_ne_str_false in E.
    destruct (m !! "contract_version"); [now cbn in E; subst | discriminate].
Qed.







(** * Further properties of the session identifier *)

Lemma hex_digit_lower_hex (d : N) : (d < 16)%N -> is_lower_hex (hex_digit d) = true.
Proof.
  intros Hd.
  assert (exists k : nat, k < 16 /\ d = N.of_nat k) as (k & Hk & ->)
    by (exists (N.to_nat d); lia).
  do 16 (destruct k as [|k]; [reflexivity|]). lia.
Qed.

Lemma hex_digits_chars (fuel : nat) :
  forall (n : N) (acc : string),
    all_chars is_lower_hex acc = true ->
    all_chars is_lower_hex (hex_digits fuel n acc) = true.
Proof.
  induction fuel as [|fuel IH]; intros n acc Hacc; simpl hex_digits; [exact Hacc|].
  assert (all_chars is_lower_hex (String (hex_digit (n mod 16)) acc) = true) as H.
  { simpl all_chars. rewrite Hacc, hex_digit_lower_hex; [reflexivity|].
    apply N.mod_lt. discriminate. }
  destruct (n / 16 =? 0)%N; [exact H | now apply IH].
Qed.

Lemma all_chars_app (p : ascii -> bool) (s t : string) :
  all_chars p (s ++ t) = all_chars p s && all_chars p t.
Proof.
  induction s as [|c s IH]; simpl; [reflexivity|].
  now rewrite IH, andb_assoc.
Qed.

Lemma zeros_chars (k : nat) : all_chars is_lower_hex (zeros k) = true.
Proof. induction k as [|k IH]; [reflexivity|]. simpl. exact IH. Qed.

Lemma format_032x_chars (n : N) : all_chars is_lower_hex (format_032x n) = true.
Proof.
  unfold format_032x, format_x.
  now rewrite all_chars_app, zeros_chars, hex_digits_chars.
Qed.

(** X1. The generator always returns, takes one draw from the random
    source and makes no outbound call; the identifier is ["session-"]
    followed by exactly 32 characters of [0-9a-f], 40 characters in all,
    and those digits read back as the UUID integer of the draw. *)
Theorem session_id_format (P : platform) (w : world) :
  exists hex : string,
    _new_runtime_session_id P w
    = (Returned ("session-" ++ hex),
       {| net_log := net_log w; urandom_draws := S (urandom_draws w) |})
    /\ String.length hex = 32
    /\ String.length ("session-" ++ hex) = 40
    /\ all_chars is_lower_hex hex = true
    /\ int16 hex = uuid4_int (os_urandom16 P (urandom_draws w)).
Proof.
  exists (format_032x (uuid4_int (os_urandom16 P (urandom_draws w)))).
  pose proof (format_032x_length _ (uuid4_int_lt (os_urandom16 P (urandom_draws w)))) as Hlen.
  split_and!.
  - reflexivity.
  - exact Hlen.
  - rewrite append_length, Hlen. reflexivity.
  - apply format_032x_chars.
  - apply format_032x_value.
Qed.

Lemma append_cancel_l (s a b : string) : s ++ a = s ++ b -> a = b.
Proof.
  induction s as [|c s IH]; simpl; [trivial|].
  intros [= H]. now apply IH.
Qed.

(** X2. Two identifiers generated one after the other come from two
    successive draws, and they are different whenever the UUID integers of
    those draws are: formatting never merges two UUIDs. *)
Theorem session_ids_differ (P : platform) (w : world) :
  uuid4_int (os_urandom16 P (urandom_draws w))
  <> uuid4_int (os_urandom16 P (S (urandom_draws w))) ->
  exists (a b : string) (w1 w2 : world),
    _new_runtime_session_id P w = (Returned a, w1)
    /\ _new_runtime_session_id P w1 = (Returned b, w2)
    /\ urandom_draws w2 = S (S (urandom_draws w))
    /\ a <> b.
Proof.
  intros Hdiff. eexists _, _, _, _. split_and!; try reflexivity.
  cbn [urandom_draws]. intros Heq. apply Hdiff.
  apply append_cancel_l in Heq.
  now rewrite <- (format_032x_value (uuid4_int (os_urandom16 P (urandom_draws w)))),
    Heq, format_032x_value.
Qed.

Lemma session_ids_differ_witness :
  exists (a b : string) (w1 w2 : world),
    _new_runtime_session_id (mock PNone) fresh = (Returned a, w1)
    /\ _new_runtime_session_id (mock PNone) w1 = (Returned b, w2)
    /\ urandom_draws w2 = S (S (urandom_draws fresh))
    /\ a <> b.
Proof.
  apply (session_ids_differ (mock PNone) fresh).
  vm_compute. discriminate.
Defined.

(** * Further properties of the two transports *)

Lemma http_outcome (P : platform) (G : settings) (payload : pyval) (w : world) :
  _call_tool_gateway_http P G payload w
  = (match requests_post P (TOOL_GATEWAY_URL G ++ "/tools/invoke") payload 20
             (length (net_log w)) with
     | inl detail => Raised (RequestException detail)
     | inr resp =>
         if ((400 <=? status_code resp) && (status_code resp <? 600))%Z
         then Raised (HTTPError resp)
         else fst (loads P (text resp) w)
     end,
     after_call w (HttpPost (TOOL_GATEWAY_URL G ++ "/tools/invoke") payload 20)).
Proof.
  unfold _call_tool_gateway_http, post, raise_for_status, loads, sent, emit,
    raise, mbind, M_bind, mret, M_ret, after_call.
  destruct (requests_post P _ payload 20 _) as [detail|resp]; cbn; [reflexivity|].
  destruct ((400 <=? status_code resp)%Z && (status_code resp <? 600)%Z); cbn;
    [reflexivity|].
  destruct (json_loads P (text resp)); reflexivity.
Qed.

(** Decoding reads the text and nothing else. *)
Lemma loads_world (P : platform) (raw : string) (w : world) :
  loads P raw w = (fst (loads P raw w), w).
Proof. unfold loads. destruct (json_loads P raw); reflexivity. Qed.

Lemma http_mode (P : platform) (G : settings) (payload : pyval) (w : world) :
  TOOL_GATEWAY_MODE G <> "agentcore" ->
  _call_tool_gateway P G payload w = _call_tool_gateway_http P G payload w.
Proof.
  intros H. unfold _call_tool_gateway.
  apply String.eqb_neq in H. now rewrite H.
Qed.

Lemma agentcore_mode (P : platform) (G : settings) (payload : pyval) (w : world) :
  TOOL_GATEWAY_MODE G = "agentcore" ->
  _call_tool_gateway P G payload w = _call_tool_gateway_agentcore P G payload w.
Proof. intros H. unfold _call_tool_gateway. now rewrite H. Qed.

(** X3. Over HTTP, when [requests.post] hands back a response with a 4xx
    or 5xx status, [search_kb] ends in the [HTTPError] that holds this
    response, after its one call of [requests.post].  The checks never run
    on such a body: whatever envelope came with the status, the call
    neither returns its results nor raises the tool failure with its
    message; the envelope stays inside the exception. *)
Theorem search_kb_http_error_status (P : platform) (G : settings)
    (env : gmap string string) (q : string) (w : world) (resp : http_response) :
  TOOL_GATEWAY_MODE G <> "agentcore" ->
  requests_post P (TOOL_GATEWAY_URL G ++ "/tools/invoke") (search_kb_payload env q) 20
    (length (net_log w)) = inr resp ->
  (400 <= status_code resp < 600)%Z ->
  search_kb P G env q w
  = (Raised (HTTPError resp),
     after_call w (HttpPost (TOOL_GATEWAY_URL G ++ "/tools/invoke")
                     (search_kb_payload env q) 20)).
Proof.
  intros Hmode Hpost Hstatus.
  apply search_kb_raised.
  rewrite (http_mode _ _ _ _ Hmode), http_outcome, Hpost.
  replace ((400 <=? status_code resp)%Z && (status_code resp <? 600)%Z) with true;
    [reflexivity|].
  symmetry. apply andb_true_iff. split; [apply Z.leb_le | apply Z.ltb_lt]; lia.
Qed.

Lemma search_kb_http_error_status_witness :
  search_kb (mock_http 503 (Decoded (PDict quota_envelope))) (import_module ∅)
    ∅ "refund policy" fresh
  = (Raised (HTTPError {| status_code := 503; text := "<response>" |}),
     after_call fresh (HttpPost (TOOL_GATEWAY_URL (import_module ∅) ++ "/tools/invoke")
                         (search_kb_payload ∅ "refund policy") 20)).
Proof.
  apply (search_kb_http_error_status (mock_http 503 (Decoded (PDict quota_envelope)))
           (import_module ∅) ∅ "refund policy" fresh
           {| status_code := 503; text := "<response>" |}).
  - vm_compute. discriminate.
  - reflexivity.
  - cbn. lia.
Defined.

(** X4. The HTTP transport makes one call of [requests.post], to
    [TOOL_GATEWAY_URL] followed by ["/tools/invoke"], with the payload as
    JSON and a timeout of 20.  Of the response the library hands back (the
    final one, after any redirect it followed) only a 4xx or 5xx status is
    an error: with any other status the text is decoded and the decoded
    value is returned unchanged, whatever its shape, and a text that does
    not decode raises the decoder's exception. *)
Theorem http_returns_decoded_body (P : platform) (G : settings) (payload : pyval)
    (w : world) (resp : http_response) :
  requests_post P (TOOL_GATEWAY_URL G ++ "/tools/invoke") payload 20
    (length (net_log w)) = inr resp ->
  (status_code resp < 400 \/ 600 <= status_code resp)%Z ->
  _call_tool_gateway_http P G payload w
  = loads P (text resp)
      (after_call w (HttpPost (TOOL_GATEWAY_URL G ++ "/tools/invoke") payload 20))
  /\ forall v : pyval,
       json_loads P (text resp) = Decoded v ->
       _call_tool_gateway_http P G payload w
       = (Returned v,
          after_call w (HttpPost (TOOL_GATEWAY_URL G ++ "/tools/invoke") payload 20)).
Proof.
  intros Hpost Hstatus.
  assert (_call_tool_gateway_http P G payload w
          = loads P (text resp)
              (after_call w (HttpPost (TOOL_GATEWAY_URL G ++ "/tools/invoke") payload 20)))
    as H.
  { rewrite http_outcome, Hpost, (loads_world P (text resp) (after_call _ _)).
    replace ((400 <=? status_code resp)%Z && (status_code resp <? 600)%Z) with false.
    - unfold loads. destruct (json_loads P (text resp)); reflexivity.
    - symmetry. apply andb_false_iff.
      destruct Hstatus; [left; apply Z.leb_gt | right; apply Z.ltb_ge]; lia. }
  split; [exact H|].
  intros v Hv. rewrite H. unfold loads. now rewrite Hv.
Qed.

Lemma http_returns_decoded_body_witness :
  _call_tool_gateway_http (mock_http 201 (Decoded (PList []))) (import_module ∅)
    (PStr "x") fresh
  = loads (mock_http 201 (Decoded (PList []))) "<response>"
      (after_call fresh (HttpPost (TOOL_GATEWAY_URL (import_module ∅) ++ "/tools/invoke")
                           (PStr "x") 20))
  /\ forall v : pyval,
       json_loads (mock_http 201 (Decoded (PList []))) "<response>" = Decoded v ->
       _call_tool_gateway_http (mock_http 201 (Decoded (PList []))) (import_module ∅)
         (PStr "x") fresh
       = (Returned v,
          after_call fresh
            (HttpPost (TOOL_GATEWAY_URL (import_module ∅) ++ "/tools/invoke")
               (PStr "x") 20)).
Proof.
  apply (http_returns_decoded_body (mock_http 201 (Decoded (PList []))) (import_module ∅)
           (PStr "x") fresh {| status_code := 201; text := "<response>" |}).
  - reflexivity.
  - left. cbn. lia.
Defined.

Lemma agentcore_outcome (P : platform) (G : settings) (payload : pyval) (w : world) :
  _call_tool_gateway_agentcore P G payload w
  = if negb (getenv_truthy (TOOL_GATEWAY_RUNTIME_ARN G)) then
      (Raised ConfigurationError, w)
    else
      match boto3_client P "bedrock-agentcore" (AWS_REGION G) with
      | Some detail => (Raised (BotoError detail), w)
      | None =>
          let session :=
            "session-" ++ format_032x (uuid4_int (os_urandom16 P (urandom_draws w))) in
          let arn := default "" (TOOL_GATEWAY_RUNTIME_ARN G) in
          (match invoke_agent_runtime P (AWS_REGION G) arn session (json_dumps P payload)
                   (TOOL_GATEWAY_QUALIFIER G) (length (net_log w)) with
           | inl detail => Raised (BotoError detail)
           | inr raw => fst (loads P raw w)
           end,
           {| net_log := net_log w
                         ++ [InvokeAgentRuntime (AWS_REGION G) arn session
                               (json_dumps P payload) (TOOL_GATEWAY_QUALIFIER G)];
              urandom_draws := S (urandom_draws w) |})
      end.
Proof.
  unfold _call_tool_gateway_agentcore, client, _new_runtime_session_id,
    invoke_and_read, loads, sent, emit, raise, mbind, M_bind, mret, M_ret.
  destruct (getenv_truthy (TOOL_GATEWAY_RUNTIME_ARN G)); cbn; [|reflexivity].
  destruct (boto3_client P "bedrock-agentcore" (AWS_REGION G)); cbn; [reflexivity|].
  destruct (invoke_agent_runtime P _ _ _ _ _ _) as [detail|raw]; cbn; [reflexivity|].
  destruct (json_loads P raw); reflexivity.
Qed.

(** X5. In hosted-runtime mode, a [TOOL_GATEWAY_RUNTIME_ARN] that is set to
    the empty string counts as missing: [search_kb] raises the
    configuration error, and neither a network operation nor a draw from
    the random source has taken place. *)
Theorem search_kb_empty_arn (P : platform) (env0 env : gmap string string)
    (q : string) (w : world) :
  lower (getenv_or env0 "TOOL_GATEWAY_MODE" "http") = "agentcore" ->
  getenv env0 "TOOL_GATEWAY_RUNTIME_ARN" = Some "" ->
  search_kb P (import_module env0) env q w = (Raised ConfigurationError, w).
Proof.
  intros Hmode Harn. apply search_kb_raised.
  rewrite agentcore_mode by exact Hmode.
  rewrite agentcore_outcome. cbn [TOOL_GATEWAY_RUNTIME_ARN import_module].
  now rewrite Harn.
Qed.

Lemma search_kb_empty_arn_witness :
  search_kb (mock PNone)
    (import_module {[ "TOOL_GATEWAY_MODE" := "agentcore"; "TOOL_GATEWAY_RUNTIME_ARN" := "" ]})
    ∅ "refund policy" fresh
  = (Raised ConfigurationError, fresh).
Proof.
  apply (search_kb_empty_arn (mock PNone)
           {[ "TOOL_GATEWAY_MODE" := "agentcore"; "TOOL_GATEWAY_RUNTIME_ARN" := "" ]}
           ∅ "refund policy" fresh).
  - vm_compute. reflexivity.
  - vm_compute. reflexivity.
Defined.

(** X6. In hosted-runtime mode with a non-empty runtime ARN and a client
    that could be created, the dispatcher calls
    [client.invoke_agent_runtime] once and [requests.post] not at all (how
    often the SDK sends the invocation under its retry policy is the
    SDK's).  The call is made with the configured region, ARN and
    qualifier, a session identifier generated for it from one draw, and the
    serialised envelope.  A body read from the stream is decoded and the
    decoded value returned unchanged; a failed invocation raises, and so
    does a body that does not decode. *)
Theorem agentcore_one_invocation (P : platform) (G : settings) (payload : pyval)
    (w : world) (arn : string) :
  TOOL_GATEWAY_MODE G = "agentcore" ->
  TOOL_GATEWAY_RUNTIME_ARN G = Some arn ->
  arn <> "" ->
  boto3_client P "bedrock-agentcore" (AWS_REGION G) = None ->
  exists (session : string) (w1 : world),
    fst (_new_runtime_session_id P w) = Returned session
    /\ w1 = {| net_log := net_log w
                          ++ [InvokeAgentRuntime (AWS_REGION G) arn session
                                (json_dumps P payload) (TOOL_GATEWAY_QUALIFIER G)];
               urandom_draws := S (urandom_draws w) |}
    /\ snd (_call_tool_gateway P G payload w) = w1
    /\ (forall detail : string,
          invoke_agent_runtime P (AWS_REGION G) arn session (json_dumps P payload)
            (TOOL_GATEWAY_QUALIFIER G) (length (net_log w)) = inl detail ->
          _call_tool_gateway P G payload w = (Raised (BotoError detail), w1))
    /\ (forall raw : string,
          invoke_agent_runtime P (AWS_REGION G) arn session (json_dumps P payload)
            (TOOL_GATEWAY_QUALIFIER G) (length (net_log w)) = inr raw ->
          _call_tool_gateway P G payload w = loads P raw w1
          /\ forall v : pyval,
               json_loads P raw = Decoded v ->
               _call_tool_gateway P G payload w = (Returned v, w1)).
Proof.
  intros Hmode Harn Hne Hclient.
  eexists _, _. split; [reflexivity|]. split; [reflexivity|].
  rewrite (agentcore_mode _ _ _ _ Hmode), agentcore_outcome, Harn, Hclient.
  apply String.eqb_neq in Hne. cbn [getenv_truthy default from_option id].
  rewrite Hne. cbn [negb]. cbv zeta. split_and!.
  - reflexivity.
  - intros detail ->. reflexivity.
  - intros raw ->.
    assert (forall w2 : world, (fst (loads P raw w), w2) = loads P raw w2) as Hl
      by (intros w2; unfold loads; destruct (json_loads P raw); reflexivity).
    split; [apply Hl|].
    intros v Hv. rewrite Hl. unfold loads. now rewrite Hv.
Qed.

Lemma agentcore_one_invocation_witness :
  exists (session : string) (w1 : world),
    fst (_new_runtime_session_id (mock (PDict doc1_envelope)) fresh) = Returned session
    /\ w1 = {| net_log := net_log fresh
                          ++ [InvokeAgentRuntime (AWS_REGION hosted_settings)
                                "arn:runtime/tg" session
                                (json_dumps (mock (PDict doc1_envelope)) (PStr "x"))
                                (TOOL_GATEWAY_QUALIFIER hosted_settings)];
               urandom_draws := S (urandom_draws fresh) |}
    /\ snd (_call_tool_gateway (mock (PDict doc1_envelope)) hosted_settings
              (PStr "x") fresh) = w1
    /\ (forall detail : string,
          invoke_agent_runtime (mock (PDict doc1_envelope)) (AWS_REGION hosted_settings)
            "arn:runtime/tg" session
            (json_dumps (mock (PDict doc1_envelope)) (PStr "x"))
            (TOOL_GATEWAY_QUALIFIER hosted_settings) (length (net_log fresh)) = inl detail ->
          _call_tool_gateway (mock (PDict doc1_envelope)) hosted_settings (PStr "x") fresh
          = (Raised (BotoError detail), w1))
    /\ (forall raw : string,
          invoke_agent_runtime (mock (PDict doc1_envelope)) (AWS_REGION hosted_settings)
            "arn:runtime/tg" session
            (json_dumps (mock (PDict doc1_envelope)) (PStr "x"))
            (TOOL_GATEWAY_QUALIFIER hosted_settings) (length (net_log fresh)) = inr raw ->
          _call_tool_gateway (mock (PDict doc1_envelope)) hosted_settings (PStr "x") fresh
          = loads (mock (PDict doc1_envelope)) raw w1
          /\ forall v : pyval,
               json_loads (mock (PDict doc1_envelope)) raw = Decoded v ->
               _call_tool_gateway (mock (PDict doc1_envelope)) hosted_settings
                 (PStr "x") fresh
               = (Returned v, w1)).
Proof.
  apply (agentcore_one_invocation (mock (PDict doc1_envelope)) hosted_settings
           (PStr "x") fresh "arn:runtime/tg").
  - vm_compute. reflexivity.
  - vm_compute. reflexivity.
  - discriminate.
  - reflexivity.
Defined.

(** X7. In hosted-runtime mode with a runtime ARN, when [boto3] cannot be
    imported or its client cannot be created, [search_kb] raises that
    failure with the world untouched: no session identifier was generated
    and nothing went out. *)
Theorem search_kb_no_client (P : platform) (G : settings) (env : gmap string string)
    (q : string) (w : world) (arn detail : string) :
  TOOL_GATEWAY_MODE G = "agentcore" ->
  TOOL_GATEWAY_RUNTIME_ARN G = Some arn ->
  arn <> "" ->
  boto3_client P "bedrock-agentcore" (AWS_REGION G) = Some detail ->
  search_kb P G env q w = (Raised (BotoError detail), w).
Proof.
  intros Hmode Harn Hne Hclient. apply search_kb_raised.
  rewrite (agentcore_mode _ _ _ _ Hmode), agentcore_outcome, Harn, Hclient.
  apply String.eqb_neq in Hne. cbn [getenv_truthy]. now rewrite Hne.
Qed.

Lemma search_kb_no_client_witness :
  search_kb mock_offline
    (import_module {[ "TOOL_GATEWAY_MODE" := "agentcore";
                      "TOOL_GATEWAY_RUNTIME_ARN" := "arn:runtime/tg" ]})
    ∅ "refund policy" fresh
  = (Raised (BotoError "No module named 'boto3'"), fresh).
Proof.
  apply (search_kb_no_client mock_offline
           (import_module {[ "TOOL_GATEWAY_MODE" := "agentcore";
                             "TOOL_GATEWAY_RUNTIME_ARN" := "arn:runtime/tg" ]})
           ∅ "refund policy" fresh "arn:runtime/tg").
  - vm_compute. reflexivity.
  - vm_compute. reflexivity.
  - discriminate.
  - reflexivity.
Defined.

(** X8. Over HTTP, only the gateway URL matters: two configurations that
    both select the HTTP transport and agree on the URL behave alike,
    whatever their runtime ARN (missing or not), qualifier and region. *)
Theorem http_ignores_runtime_settings (P : platform) (G G' : settings)
    (env : gmap string string) (q : string) (w : world) :
  TOOL_GATEWAY_MODE G <> "agentcore" ->
  TOOL_GATEWAY_MODE G' <> "agentcore" ->
  TOOL_GATEWAY_URL G = TOOL_GATEWAY_URL G' ->
  search_kb P G env q w = search_kb P G' env q w.
Proof.
  intros Hmode Hmode' Hurl.
  unfold search_kb, mbind, M_bind.
  rewrite (http_mode _ _ _ _ Hmode), (http_mode _ _ _ _ Hmode'), !http_outcome.
  now rewrite Hurl.
Qed.

Lemma http_ignores_runtime_settings_witness :
  search_kb (mock (PDict doc1_envelope)) (import_module ∅) ∅ "refund policy" fresh
  = search_kb (mock (PDict doc1_envelope))
      (import_module {[ "TOOL_GATEWAY_MODE" := "HTTP";
                        "TOOL_GATEWAY_RUNTIME_ARN" := "arn:runtime/tg";
                        "AWS_REGION" := "eu-west-1" ]})
      ∅ "refund policy" fresh.
Proof.
  apply (http_ignores_runtime_settings (mock (PDict doc1_envelope)) (import_module ∅)
           (import_module {[ "TOOL_GATEWAY_MODE" := "HTTP";
                             "TOOL_GATEWAY_RUNTIME_ARN" := "arn:runtime/tg";
                             "AWS_REGION" := "eu-west-1" ]})
           ∅ "refund policy" fresh).
  - vm_compute. discriminate.
  - vm_compute. discriminate.
  - vm_compute. reflexivity.
Defined.

(** X9. In hosted-runtime mode the gateway URL is never used: two
    configurations that both select the hosted runtime and agree on ARN,
    qualifier and region behave alike. *)
Theorem agentcore_ignores_url (P : platform) (G G' : settings)
    (env : gmap string string) (q : string) (w : world) :
  TOOL_GATEWAY_MODE G = "agentcore" ->
  TOOL_GATEWAY_MODE G' = "agentcore" ->
  TOOL_GATEWAY_RUNTIME_ARN G = TOOL_GATEWAY_RUNTIME_ARN G' ->
  TOOL_GATEWAY_QUALIFIER G = TOOL_GATEWAY_QUALIFIER G' ->
  AWS_REGION G = AWS_REGION G' ->
  search_kb P G env q w = search_kb P G' env q w.
Proof.
  intros Hmode Hmode' Harn Hq Hr.
  unfold search_kb, mbind, M_bind.
  rewrite (agentcore_mode _ _ _ _ Hmode), (agentcore_mode _ _ _ _ Hmode'),
    !agentcore_outcome.
  now rewrite Harn, Hq, Hr.
Qed.

Lemma agentcore_ignores_url_witness :
  search_kb (mock (PDict doc1_envelope))
    (import_module {[ "TOOL_GATEWAY_MODE" := "agentcore";
                      "TOOL_GATEWAY_RUNTIME_ARN" := "arn:runtime/tg" ]})
    ∅ "refund policy" fresh
  = search_kb (mock (PDict doc1_envelope))
      (import_module {[ "TOOL_GATEWAY_MODE" := "AGENTCORE";
                        "TOOL_GATEWAY_RUNTIME_ARN" := "arn:runtime/tg";
                        "TOOL_GATEWAY_URL" := "http://gateway:9000" ]})
      ∅ "refund policy" fresh.
Proof.
  apply (agentcore_ignores_url (mock (PDict doc1_envelope))
           (import_module {[ "TOOL_GATEWAY_MODE" := "agentcore";
                             "TOOL_GATEWAY_RUNTIME_ARN" := "arn:runtime/tg" ]})
           (import_module {[ "TOOL_GATEWAY_MODE" := "AGENTCORE";
                             "TOOL_GATEWAY_RUNTIME_ARN" := "arn:runtime/tg";
                             "TOOL_GATEWAY_URL" := "http://gateway:9000" ]})
           ∅ "refund policy" fresh).
  all: vm_compute; reflexivity.
Defined.

(** X10. Whatever the mode, the answers of the platform and the outcome, one
    run of [search_kb] calls into the network libraries at most once, either
    [requests.post] or [client.invoke_agent_runtime] and never both, and has
    no retry of its own; and it takes exactly as many draws from the random
    source as it makes calls of [invoke_agent_runtime]: one fresh session
    identifier for the invocation, none for a POST. *)
Theorem search_kb_at_most_one_call (P : platform) (G : settings)
    (env : gmap string string) (q : string) (w : world) :
  exists calls : list net_call,
    net_log (snd (search_kb P G env q w)) = (net_log w ++ calls)%list
    /\ length calls <= 1
    /\ urandom_draws (snd (search_kb P G env q w))
       = urandom_draws w + length (List.filter is_invocation calls).
Proof.
  rewrite search_kb_world. unfold _call_tool_gateway.
  destruct (String.eqb (TOOL_GATEWAY_MODE G) "agentcore").
  - rewrite agentcore_outcome.
    destruct (negb (getenv_truthy (TOOL_GATEWAY_RUNTIME_ARN G))).
    + exists []. cbn. rewrite app_nil_r. split_and!; lia || reflexivity.
    + destruct (boto3_client P "bedrock-agentcore" (AWS_REGION G)).
      * exists []. cbn. rewrite app_nil_r. split_and!; lia || reflexivity.
      * eexists [_]. split_and!; [reflexivity | cbn; lia | cbn; lia].
  - rewrite http_outcome. eexists [_]. split_and!; [reflexivity | cbn; lia | cbn; lia].
Qed.

(** * Further properties of the checks *)

(** X11. Once the transport has returned a body, [search_kb] returns the
    value [r] exactly when the body is a mapping with the client's contract
    version, an [ok] that Python counts as true (so [1] or a non-empty
    string as well as [true]), and an [output] mapping whose [results] is
    [r], not null. *)
Theorem search_kb_returns_iff (P : platform) (G : settings) (env : gmap string string)
    (q : string) (w w' : world) (body r : pyval) :
  _call_tool_gateway P G (search_kb_payload env q) w = (Returned body, w') ->
  (search_kb P G env q w = (Returned r, w')
   <-> exists m o : gmap string pyval,
         body = PDict m
         /\ m !! "contract_version" = Some (PStr CONTRACT_VERSION)
         /\ truthy (default PNone (m !! "ok")) = true
         /\ m !! "output" = Some (PDict o)
         /\ o !! "results" = Some r
         /\ r <> PNone).
Proof.
  intros Hcall. rewrite (search_kb_returned _ _ _ _ _ _ _ Hcall). split.
  - intros H. now apply check_response_returned in H as (_ & H).
  - intros (m & o & -> & Hv & Hok & Hout & Hres & Hr).
    rewrite (check_response_matching m w' Hv), Hok, Hout.
    cbn [default from_option id negb].
    rewrite results_of_output, Hres.
    destruct r; try reflexivity. now elim Hr.
Qed.

Lemma search_kb_returns_iff_witness :
  search_kb (mock (PDict ok_one_envelope)) (import_module ∅) ∅ "refund policy" fresh
  = (Returned (PList [PDict {[ "id" := PStr "doc1" ]}]),
     after_call fresh (HttpPost "http://localhost:8080/tools/invoke"
                         (search_kb_payload ∅ "refund policy") 20)).
Proof.
  assert (_call_tool_gateway (mock (PDict ok_one_envelope)) (import_module ∅)
            (search_kb_payload ∅ "refund policy") fresh
          = (Returned (PDict ok_one_envelope),
             after_call fresh (HttpPost "http://localhost:8080/tools/invoke"
                                 (search_kb_payload ∅ "refund policy") 20))) as Hcall
    by (vm_compute; reflexivity).
  apply (proj2 (search_kb_returns_iff _ _ _ _ _ _ _ _ Hcall)).
  exists ok_one_envelope, {[ "results" := PList [PDict {[ "id" := PStr "doc1" ]}] ]}.
  split_and!; try (vm_compute; reflexivity). discriminate.
Defined.

(** X12. For a body with the client's contract version, any [ok] that
    Python counts as false (absent, null, [false], [0], an empty string,
    list or mapping) makes [search_kb] raise the tool failure, provided
    [error] is a mapping or itself a false value; the message is
    [error.message] taken as it is, and [output] plays no part. *)
Theorem search_kb_falsy_ok (P : platform) (G : settings) (env : gmap string string)
    (q : string) (w w' : world) (m : gmap string pyval) :
  _call_tool_gateway P G (search_kb_payload env q) w = (Returned (PDict m), w') ->
  m !! "contract_version" = Some (PStr CONTRACT_VERSION) ->
  truthy (default PNone (m !! "ok")) = false ->
  get_safe (default (PDict ∅) (m !! "error")) = true ->
  search_kb P G env q w
  = (Raised (ToolFailure (default fallback_message (error_message m))), w').
Proof.
  intros Hcall Hv Hok Hsafe.
  rewrite (search_kb_returned _ _ _ _ _ _ _ Hcall).
  rewrite (check_response_matching m w' Hv), Hok. cbn [negb].
  apply message_of_error. now apply get_safe_shape.
Qed.

Lemma search_kb_falsy_ok_witness :
  search_kb (mock (PDict ok_zero_envelope)) (import_module ∅) ∅ "refund policy" fresh
  = (Raised (ToolFailure (default fallback_message (error_message ok_zero_envelope))),
     after_call fresh (HttpPost "http://localhost:8080/tools/invoke"
                         (search_kb_payload ∅ "refund policy") 20)).
Proof.
  apply (search_kb_falsy_ok (mock (PDict ok_zero_envelope)) (import_module ∅)
           ∅ "refund policy" fresh _ ok_zero_envelope).
  all: vm_compute; reflexivity.
Defined.

(** X13. Once the transport has returned a body, [search_kb] ends in an
    [AttributeError] exactly in these cases: the body is not a mapping; or
    it has the client's version, a false [ok], and an [error] that is true
    and not a mapping; or it has the client's version, a true [ok], and an
    [output] that is true and not a mapping. *)
Theorem search_kb_attribute_error_iff (P : platform) (G : settings)
    (env : gmap string string) (q : string) (w w' : world) (body : pyval) :
  _call_tool_gateway P G (search_kb_payload env q) w = (Returned body, w') ->
  ((exists s : string, search_kb P G env q w = (Raised (AttributeError s), w'))
   <-> match body with
       | PDict m =>
           m !! "contract_version" = Some (PStr CONTRACT_VERSION)
           /\ (if truthy (default PNone (m !! "ok"))
               then get_safe (default (PDict ∅) (m !! "output")) = false
               else get_safe (default (PDict ∅) (m !! "error")) = false)
       | _ => True
       end).
Proof.
  intros Hcall. rewrite (search_kb_returned _ _ _ _ _ _ _ Hcall).
  destruct body as [| | | | | |m]; try (split; [trivial | intros _; eexists; reflexivity]).
  destruct (version_cases m) as [Hv|Hv].
  - rewrite (check_response_matching m w' Hv).
    destruct (truthy (default PNone (m !! "ok"))) eqn:Hok; cbn [negb].
    + destruct (get_safe (default (PDict ∅) (m !! "output"))) eqn:Hs.
      * split; [|intros [_ H]; discriminate].
        intros [s H]. exfalso.
        destruct (get_safe_or _ Hs) as (e & He & _).
        rewrite He, bind_get_dict in H.
        destruct (e !! "results") as [[]|]; discriminate.
      * split; [now intros _|]. intros _. eexists.
        unfold mbind, M_bind. now rewrite (get_unsafe_or _ _ _ _ Hs).
    + destruct (get_safe (default (PDict ∅) (m !! "error"))) eqn:Hs.
      * split; [|intros [_ H]; discriminate].
        intros [s H]. exfalso.
        rewrite (message_of_error m w' (get_safe_shape m "error" Hs)) in H.
        discriminate.
      * split; [now intros _|]. intros _. eexists.
        unfold mbind, M_bind. now rewrite (get_unsafe_or _ _ _ _ Hs).
  - split.
    + intros [s H]. exfalso. unfold check_response in H.
      rewrite bind_get_dict, (version_mismatch m Hv) in H. discriminate.
    + now intros [H _].
Qed.

Lemma search_kb_attribute_error_iff_witness :
  exists s : string,
    search_kb (mock (PDict list_output_envelope)) (import_module ∅)
      ∅ "refund policy" fresh
    = (Raised (AttributeError s),
       after_call fresh (HttpPost "http://localhost:8080/tools/invoke"
                           (search_kb_payload ∅ "refund policy") 20)).
Proof.
  assert (_call_tool_gateway (mock (PDict list_output_envelope)) (import_module ∅)
            (search_kb_payload ∅ "refund policy") fresh
          = (Returned (PDict list_output_envelope),
             after_call fresh (HttpPost "http://localhost:8080/tools/invoke"
                                 (search_kb_payload ∅ "refund policy") 20))) as Hcall
    by (vm_compute; reflexivity).
  apply (proj2 (search_kb_attribute_error_iff _ _ _ _ _ _ _ Hcall)).
  split; vm_compute; reflexivity.
Defined.

(** X14. The checks look at four fields of the body and no other:
    two bodies that agree on [contract_version], [ok], [error] and [output]
    are treated alike, whatever else they carry. *)
Theorem check_response_four_fields (m m' : gmap string pyval) (w : world) :
  m !! "contract_version" = m' !! "contract_version" ->
  m !! "ok" = m' !! "ok" ->
  m !! "error" = m' !! "error" ->
  m !! "output" = m' !! "output" ->
  check_response (PDict m) w = check_response (PDict m') w.
Proof.
  intros Hv Hok Herr Hout. unfold check_response.
  rewrite !bind_get_dict, Hv.
  destruct (py_ne_str _ CONTRACT_VERSION); [reflexivity|].
  rewrite !bind_get_dict, Hok.
  destruct (negb (truthy _)); rewrite !bind_get_dict.
  - now rewrite Herr.
  - now rewrite Hout.
Qed.

Lemma check_response_four_fields_witness :
  check_response (PDict doc1_envelope) fresh
  = check_response (PDict (<["trace" := PStr "abc"]> doc1_envelope)) fresh.
Proof.
  apply (check_response_four_fields doc1_envelope
           (<["trace" := PStr "abc"]> doc1_envelope) fresh).
  all: vm_compute; reflexivity.
Defined.
